(** * MBSync: [create_template_js.py]

    A verification development for the template bundler of MBSync.  The
    script reads the workbook ['MB Change Request Form.xlsx'], encodes its
    bytes as base64 text and writes [lib/template-data.js], a one-line
    script binding the text to [window.TEMPLATE_DATA].

    The development has three layers:
    - [Base64]: the standard-library transform [base64.b64encode] and the
      inverse used to state the round trip;
    - [Py]: the fragment of the Python run time the script touches: a file
      system, the console, exceptions, [with open(...)], [try/except];
    - [create_template_js]: the script itself, statement by statement. *)

From Stdlib Require Import ZArith Lia List.
From Stdlib.Strings Require Import Ascii String Byte.
From stdpp Require Import gmap strings list fin_maps.

Local Open Scope Z_scope.

(** ** Base64 (RFC 4648, section 4) *)

Module Base64.

(** The 64-character alphabet, in index order, as the bytes of its ASCII
    text; [pad] is ['=']. *)
Definition alphabet : list byte :=
  list_byte_of_string
    "ABCDEFGHIJKLMNOPQRSTUVWXYZabcdefghijklmnopqrstuvwxyz0123456789+/".

Definition pad : byte := "="%byte.

Definition Z_of_byte (b : byte) : Z := Z.of_N (Byte.to_N b).

Definition byte_of_Z (z : Z) : byte :=
  match Byte.of_N (Z.to_N z) with
  | Some b => b
  | None => "000"%byte
  end.

(** The 256 bytes, in order. *)
Definition all_bytes : list byte := map (fun n => byte_of_Z (Z.of_nat n)) (seq 0 256).

(** [b2a i] is the character standing for the 6-bit value [i];
    [a2b c] is the 6-bit value of an alphabet character. *)
Definition b2a (i : Z) : byte := nth (Z.to_nat i) alphabet pad.

Fixpoint index_from (i : Z) (c : byte) (tbl : list byte) : option Z :=
  match tbl with
  | [] => None
  | x :: tbl' => if Byte.eqb x c then Some i else index_from (i + 1) c tbl'
  end.

Definition a2b (c : byte) : option Z := index_from 0 c alphabet.

(** All 6-bit values, in order. *)
Definition sextets : list Z := map Z.of_nat (seq 0 64).

Definition is_b64_char (c : byte) : bool :=
  match a2b c with Some _ => true | None => Byte.eqb c pad end.

(** Bits are collected most significant first: a byte (8 bits) or a
    character value (6 bits) is shifted into the accumulator. *)
Definition shift_in (w : Z) (acc x : Z) : Z := Z.lor (Z.shiftl acc w) x.

Definition group24 (a b c : Z) : Z := shift_in 8 (shift_in 8 a b) c.

Definition sextet (n k : Z) : Z := Z.land (Z.shiftr n k) 63.

Definition octet (n k : Z) : Z := Z.land (Z.shiftr n k) 255.

Definition ungroup24 (s0 s1 s2 s3 : Z) : Z :=
  shift_in 6 (shift_in 6 (shift_in 6 s0 s1) s2) s3.

(** [b64encode s]: every three bytes give four characters; a tail of one
    or two bytes is completed with zero bits and padded with ['=']. *)
Fixpoint b64encode (s : list byte) : list byte :=
  match s with
  | [] => []
  | [a] =>
      let n := group24 (Z_of_byte a) 0 0 in
      [b2a (sextet n 18); b2a (sextet n 12); pad; pad]
  | [a; b] =>
      let n := group24 (Z_of_byte a) (Z_of_byte b) 0 in
      [b2a (sextet n 18); b2a (sextet n 12); b2a (sextet n 6); pad]
  | a :: b :: c :: rest =>
      let n := group24 (Z_of_byte a) (Z_of_byte b) (Z_of_byte c) in
      b2a (sextet n 18) :: b2a (sextet n 12) :: b2a (sextet n 6)
        :: b2a (sextet n 0) :: b64encode rest
  end.

(** The strict decoder: four characters at a time, padding accepted only
    in the last group. *)
Definition decode_full (c0 c1 c2 c3 : byte) : option (list byte) :=
  match a2b c0, a2b c1, a2b c2, a2b c3 with
  | Some s0, Some s1, Some s2, Some s3 =>
      let n := ungroup24 s0 s1 s2 s3 in
      Some [byte_of_Z (octet n 16); byte_of_Z (octet n 8); byte_of_Z (octet n 0)]
  | _, _, _, _ => None
  end.

Definition decode_last (c0 c1 c2 c3 : byte) : option (list byte) :=
  if Byte.eqb c3 pad then
    if Byte.eqb c2 pad then
      match a2b c0, a2b c1 with
      | Some s0, Some s1 =>
          Some [byte_of_Z (octet (ungroup24 s0 s1 0 0) 16)]
      | _, _ => None
      end
    else
      match a2b c0, a2b c1, a2b c2 with
      | Some s0, Some s1, Some s2 =>
          let n := ungroup24 s0 s1 s2 0 in
          Some [byte_of_Z (octet n 16); byte_of_Z (octet n 8)]
      | _, _, _ => None
      end
  else decode_full c0 c1 c2 c3.

Fixpoint b64decode (t : list byte) : option (list byte) :=
  match t with
  | [] => Some []
  | [c0; c1; c2; c3] => decode_last c0 c1 c2 c3
  | c0 :: c1 :: c2 :: c3 :: rest =>
      match decode_full c0 c1 c2 c3, b64decode rest with
      | Some x, Some y => Some (x ++ y)
      | _, _ => None
      end
  | _ => None
  end.

End Base64.

(** ** The Python run time, as far as the script uses it *)

Module Py.

(** A path names a regular file with its bytes, or a directory. *)
Inductive node : Type :=
  | File (data : list byte)
  | Dir.

(** An exception object: its class and [str(e)].  Every exception of the
    model is an [OSError] or a [ValueError], hence an [Exception], and is
    caught by [except Exception]. *)
Record exn : Type := Exn { exn_class : string; exn_str : string }.

(** The calls made to the file system, in the order they are made. *)
Inductive event : Type :=
  | Mkdir (p : string)
  | Stat (p : string)
  | OpenRead (p : string)
  | OpenWrite (p : string)
  | WriteFile (p : string).

(** The calls that can change the file tree. *)
Definition mutating (ev : event) : bool :=
  match ev with
  | Mkdir _ | OpenWrite _ | WriteFile _ => true
  | Stat _ | OpenRead _ => false
  end.

(** The observable state: the files by path, the lines printed, and the
    log of file-system calls. *)
Record world : Type := World {
  files : gmap string node;
  console : list string;
  trace : list event
}.

(** Failures of the operating system that the file tree alone does not
    decide (permissions, a full disk, a failing device), each with the
    [OSError] it raises.  [flush_fault] carries the number of bytes that
    reached the file before the error. *)
Record faults : Type := Faults {
  mkdir_fault : option exn;
  read_fault : option exn;
  open_w_fault : option exn;
  flush_fault : option (nat * exn)
}.

Definition no_faults : faults := Faults None None None None.

Inductive result (A : Type) : Type :=
  | Ok (a : A)
  | Raise (e : exn).
Arguments Ok {A} a.
Arguments Raise {A} e.

(** A statement maps the state to an outcome and the state it leaves. *)
Definition M (A : Type) : Type := world -> result A * world.

Definition ret {A} (a : A) : M A := fun w => (Ok a, w).

Definition bind {A B} (m : M A) (k : A -> M B) : M B :=
  fun w =>
    match m w with
    | (Ok a, w') => k a w'
    | (Raise e, w') => (Raise e, w')
    end.

Definition raise {A} (e : exn) : M A := fun w => (Raise e, w).

(** [try: body except Exception as e: handler(e)].  The effects of the
    body up to the exception stay. *)
Definition try_except {A} (body : M A) (handler : exn -> M A) : M A :=
  fun w =>
    match body w with
    | (Ok a, w') => (Ok a, w')
    | (Raise e, w') => handler e w'
    end.

Definition get_files : M (gmap string node) := fun w => (Ok (files w), w).

Definition put_files (fs : gmap string node) : M unit :=
  fun w => (Ok tt, World fs (console w) (trace w)).

Definition log (ev : event) : M unit :=
  fun w => (Ok tt, World (files w) (console w) (trace w ++ [ev])).

#[global] Instance M_ret : MRet M := @ret.
#[global] Instance M_bind : MBind M := fun A B k m => bind m k.

(** [print(s)] *)
Definition print (s : string) : M unit :=
  fun w => (Ok tt, World (files w) (console w ++ [s]) (trace w)).

Definition os_error (cls : string) (errno strerror path : string) : exn :=
  Exn cls ("[Errno " +:+ errno +:+ "] " +:+ strerror +:+ ": '" +:+ path +:+ "'").

Definition FileExistsError := os_error "FileExistsError" "17" "File exists".
Definition FileNotFoundError :=
  os_error "FileNotFoundError" "2" "No such file or directory".
Definition NotADirectoryError := os_error "NotADirectoryError" "20" "Not a directory".
Definition IsADirectoryError := os_error "IsADirectoryError" "21" "Is a directory".

(** [os.path.exists(p)], [os.path.isdir(p)]: they never raise. *)
Definition os_path_exists (p : string) : M bool :=
  log (Stat p) ;;
  fs ← get_files; ret (bool_decide (is_Some (fs !! p))).

Definition os_path_isdir (p : string) : M bool :=
  log (Stat p) ;;
  fs ← get_files;
  ret (match fs !! p with Some Dir => true | _ => false end).

(** [os.path.dirname(p)]: the part before the last ['/']. *)
Fixpoint has_slash (p : string) : bool :=
  match p with
  | EmptyString => false
  | String c p' => if Ascii.eqb c "/" then true else has_slash p'
  end.

Fixpoint dirname (p : string) : string :=
  match p with
  | EmptyString => EmptyString
  | String c p' => if has_slash p' then String c (dirname p') else EmptyString
  end.

Section WithFaults.

Variable env : faults.

(** [os.mkdir(p)] for a path in the working directory. *)
Definition os_mkdir (p : string) : M unit :=
  log (Mkdir p) ;;
  match mkdir_fault env with
  | Some e => raise e
  | None =>
      fs ← get_files;
      match fs !! p with
      | Some _ => raise (FileExistsError p)
      | None => put_files (<[p := Dir]> fs)
      end
  end.

(** [os.makedirs(p, exist_ok=...)] for a path of one component: the
    [mkdir], whose error is dropped when [exist_ok] is set and the path
    is a directory. *)
Definition os_makedirs (p : string) (exist_ok : bool) : M unit :=
  try_except (os_mkdir p)
    (fun e =>
       isd ← os_path_isdir p;
       if negb exist_ok || negb isd then raise e else ret tt).

(** [with open(p, 'rb') as f: f.read()] *)
Definition read_binary (p : string) : M (list byte) :=
  log (OpenRead p) ;;
  match read_fault env with
  | Some e => raise e
  | None =>
      fs ← get_files;
      match fs !! p with
      | None => raise (FileNotFoundError p)
      | Some Dir => raise (IsADirectoryError p)
      | Some (File data) => ret data
      end
  end.

(** [open(p, 'w')]: the containing directory must exist; the file is
    created, or truncated when it exists. *)
Definition open_w (p : string) : M unit :=
  log (OpenWrite p) ;;
  match open_w_fault env with
  | Some e => raise e
  | None =>
      fs ← get_files;
      let d := dirname p in
      let parent_ok :=
        match d with
        | EmptyString => Ok tt
        | _ => match fs !! d with
               | Some Dir => Ok tt
               | Some (File _) => Raise (NotADirectoryError p)
               | None => Raise (FileNotFoundError p)
               end
        end in
      match parent_ok with
      | Raise e => raise e
      | Ok _ =>
          match fs !! p with
          | Some Dir => raise (IsADirectoryError p)
          | _ => put_files (<[p := File []]> fs)
          end
      end
  end.

(** [f.write(s)] and the flush when the [with] block closes the file:
    all bytes reach the file, or the first [k] of them and an error. *)
Definition write_bytes (p : string) (bs : list byte) : M unit :=
  log (WriteFile p) ;;
  fs ← get_files;
  match flush_fault env with
  | Some (k, e) => put_files (<[p := File (firstn k bs)]> fs) ;; raise e
  | None => put_files (<[p := File bs]> fs)
  end.

(** Text written in mode ['w'] is encoded; the model's [str] holds
    one-byte characters, each encoded as that byte. *)
Definition encode_text (s : string) : list byte := list_byte_of_string s.

(** [with open(p, 'w') as f: f.write(s)] *)
Definition write_text (p : string) (s : string) : M unit :=
  open_w p ;; write_bytes p (encode_text s).

End WithFaults.

(** [bs.decode('utf-8')]: a byte below 128 is the character of that code.
    The model's [str] has no characters beyond one byte, so other input is
    reported as undecodable ([Base64_facts.b64encode_is_ascii] shows that
    the script never meets it). *)
Definition is_ascii (b : byte) : bool := (Base64.Z_of_byte b <? 128)%Z.

Definition bytes_decode_utf8 (bs : list byte) : M string :=
  if forallb is_ascii bs then ret (string_of_list_byte bs)
  else raise (Exn "UnicodeDecodeError" "'utf-8' codec can't decode bytes").

End Py.

(** ** The script *)

Import Py.

Definition source_file : string := "MB Change Request Form.xlsx".
Definition output_file : string := "lib/template-data.js".

(** [js_content = f"window.TEMPLATE_DATA = '{encoded}';"] *)
Definition js_content (encoded : string) : string :=
  "window.TEMPLATE_DATA = '" +:+ encoded +:+ "';".

Definition not_found_message : string :=
  "Error: '" +:+ source_file
    +:+ "' not found. Please place your Excel file in this folder.".

(** [f"Error: {e}"] *)
Definition error_line (e : exn) : string := "Error: " +:+ exn_str e.

(** The body of the [try] block. *)
Definition bundle (env : faults) : M unit :=
  data ← read_binary env source_file;
  encoded ← bytes_decode_utf8 (Base64.b64encode data);
  write_text env output_file (js_content encoded) ;;
  print ("Success! Created " +:+ output_file) ;;
  print "Link this file in your index.html before app.js".

Definition create_template_js (env : faults) : M unit :=
  os_makedirs env "lib" true ;;
  found ← os_path_exists source_file;
  if negb found then print not_found_message
  else try_except (bundle env) (fun e => print (error_line e)).

(** One run from a file tree, with an empty console and an empty log. *)
Definition run (env : faults) (fs : gmap string node) : result unit * world :=
  create_template_js env (World fs [] []).

Definition outcome (r : result unit * world) : result unit := fst r.
Definition files_after (r : result unit * world) : gmap string node := files (snd r).
Definition printed (r : result unit * world) : list string := console (snd r).
Definition calls (r : result unit * world) : list event := trace (snd r).

(** The bytes of the artifact for a workbook [B]. *)
Definition artifact (B : list byte) : list byte :=
  encode_text (js_content (string_of_list_byte (Base64.b64encode B))).

Definition artifact_of (fs : gmap string node) : option (list byte) :=
  match fs !! source_file with
  | Some (File B) => Some (artifact B)
  | _ => None
  end.

(** Conditions under which no call of a run fails.  [mkdir_ok]: the
    directory is there, or is absent and can be made.  [rw_ok]: reading,
    opening and writing meet no fault and the output path is not a
    directory. *)
Definition absent {A} (o : option A) : bool :=
  match o with None => true | Some _ => false end.

Definition is_dir (fs : gmap string node) (p : string) : bool :=
  match fs !! p with Some Dir => true | _ => false end.

Definition mkdir_ok (env : faults) (fs : gmap string node) : bool :=
  match fs !! "lib" with
  | Some Dir => true
  | Some (File _) => false
  | None => absent (mkdir_fault env)
  end.

Definition rw_ok (env : faults) (fs : gmap string node) : bool :=
  absent (read_fault env) && absent (open_w_fault env)
    && absent (flush_fault env) && negb (is_dir fs output_file).

Definition io_ok (env : faults) (fs : gmap string node) : bool :=
  mkdir_ok env fs && rw_ok env fs.

(** A run succeeded when it returned and what it printed is the two
    lines of the success report. *)
Definition success_lines : list string :=
  ["Success! Created " +:+ output_file;
   "Link this file in your index.html before app.js"].

Definition succeeded (r : result unit * world) : Prop :=
  outcome r = Ok tt ∧ printed r = success_lines.

(** The text between the first two single quotes of a line. *)
Fixpoint until_quote (s : string) : option string :=
  match s with
  | EmptyString => None
  | String c s' =>
      if Ascii.eqb c "'" then Some EmptyString
      else String c <$> until_quote s'
  end.

Fixpoint between_quotes (s : string) : option string :=
  match s with
  | EmptyString => None
  | String c s' =>
      if Ascii.eqb c "'" then until_quote s' else between_quotes s'
  end.

(** What a reader of the artifact recovers: the file's text, the
    part between the quotes, decoded. *)
Definition payload_of (content : list byte) : option (list byte) :=
  t ← between_quotes (string_of_list_byte content);
  Base64.b64decode (list_byte_of_string t).

(** The characters that may stand unescaped inside a single-quoted
    JavaScript string literal: all but the quote, the backslash, the line
    feed and the carriage return. *)
Definition js_sq_plain (c : byte) : bool :=
  negb (Byte.eqb c "'" || Byte.eqb c "\" || Byte.eqb c "010" || Byte.eqb c "013")%byte.

(** A recogniser of the statement [window.TEMPLATE_DATA = '...';]: the
    fixed head, plain characters, the closing quote, the semicolon, and
    nothing after it. *)
Fixpoint strip_prefix (pre s : list byte) : option (list byte) :=
  match pre, s with
  | [], _ => Some s
  | p :: pre', c :: s' => if Byte.eqb p c then strip_prefix pre' s' else None
  | _ :: _, [] => None
  end.

Fixpoint literal_tail (s : list byte) : bool :=
  match s with
  | [] => false
  | c :: s' =>
      if Byte.eqb c "'" then
        match s' with
        | [c'] => Byte.eqb c' ";"
        | _ => false
        end
      else js_sq_plain c && literal_tail s'
  end.

Definition well_formed_assignment (content : list byte) : bool :=
  match strip_prefix (list_byte_of_string "window.TEMPLATE_DATA = '") content with
  | Some rest => literal_tail rest
  | None => false
  end.

(** The calls a run makes before it checks that the source exists. *)
Fixpoint before_check (tr : list event) : list event :=
  match tr with
  | [] => []
  | Stat p :: tr' =>
      if String.eqb p source_file then [] else Stat p :: before_check tr'
  | ev :: tr' => ev :: before_check tr'
  end.

Definition check_precedes_effects (r : result unit * world) : bool :=
  forallb (fun ev => negb (mutating ev)) (before_check (calls r)).

(** The calls that open, read or write a file. *)
Definition opens (ev : event) : bool :=
  match ev with
  | OpenRead _ | OpenWrite _ | WriteFile _ => true
  | Mkdir _ | Stat _ => false
  end.

(** The calls the script is expected to make: the directory ['lib'], the
    source for reading, the artifact for writing, and existence tests. *)
Definition expected_call (ev : event) : bool :=
  match ev with
  | Mkdir p => String.eqb p "lib"
  | Stat _ => true
  | OpenRead p => String.eqb p source_file
  | OpenWrite p | WriteFile p => String.eqb p output_file
  end.

(** All or nothing: after the run the artifact is as it was, or is the
    complete artifact of the workbook. *)
Definition atomic_in_effect (env : faults) (fs : gmap string node) : Prop :=
  files_after (run env fs) !! output_file = fs !! output_file
  ∨ ∃ a, artifact_of fs = Some a
         ∧ files_after (run env fs) !! output_file = Some (File a).

(** No exception reaches the caller. *)
Definition returns_normally (env : faults) (fs : gmap string node) : Prop :=
  outcome (run env fs) = Ok tt.

(** ** Sample file trees and environments *)

Definition workbook_Man : list byte := list_byte_of_string "Man".

(** Only the workbook is there. *)
Definition fs_workbook_only : gmap string node :=
  {[ source_file := File workbook_Man ]}.

(** The workbook, the directory and an artifact of an earlier run. *)
Definition fs_with_old_artifact : gmap string node :=
  <[ output_file := File (list_byte_of_string "old") ]>
    (<[ "lib" := Dir ]> fs_workbook_only).

(** ['lib'] is a regular file. *)
Definition fs_lib_is_file : gmap string node :=
  <[ "lib" := File [] ]> fs_workbook_only.

(** The disk fills up after five bytes of the artifact are written. *)
Definition disk_full_after_5 : faults :=
  Faults None None None
    (Some (5%nat, Exn "OSError" "[Errno 28] No space left on device")).

(** The source file is there but may not be read. *)
Definition source_unreadable : faults :=
  Faults None
    (Some (Exn "PermissionError"
               "[Errno 13] Permission denied: 'MB Change Request Form.xlsx'"))
    None None.

(** The output file may not be opened for writing. *)
Definition output_unwritable : faults :=
  Faults None None
    (Some (Exn "PermissionError"
               "[Errno 13] Permission denied: 'lib/template-data.js'"))
    None.

(** A directory stands where the workbook is expected. *)
Definition fs_source_is_dir : gmap string node :=
  {[ source_file := Dir ]}.

(** A directory stands where the artifact is to be written. *)
Definition fs_output_is_dir : gmap string node :=
  <[ output_file := Dir ]> (<[ "lib" := Dir ]> fs_workbook_only).

(** The handling of a missing source, as far as one run goes: the "not
    found" message is printed, the output file is as it was, and the
    function returns. *)
Definition missing_source_handled (env : faults) (fs : gmap string node) : Prop :=
  printed (run env fs) = [not_found_message]
  ∧ files_after (run env fs) !! output_file = fs !! output_file
  ∧ outcome (run env fs) = Ok tt.

(** No workbook, and ['lib'] is a regular file. *)
Definition fs_no_source_lib_is_file : gmap string node :=
  {[ "lib" := File [] ]}.

(** * Properties *)

(** ** Base64: arithmetic of the groups *)

Module Base64_facts.
Import Base64.

Lemma Z_of_byte_range (b : byte) : 0 <= Z_of_byte b < 256.
Proof.
  unfold Z_of_byte. pose proof (Byte.to_N_bounded b). lia.
Qed.

Lemma byte_of_Z_of_byte (b : byte) : byte_of_Z (Z_of_byte b) = b.
Proof.
  unfold byte_of_Z, Z_of_byte. rewrite N2Z.id, Byte.of_to_N. reflexivity.
Qed.

Lemma in_all_bytes (b : byte) : In b all_bytes.
Proof.
  unfold all_bytes. apply in_map_iff. exists (Z.to_nat (Z_of_byte b)).
  pose proof (Z_of_byte_range b) as Hb. split.
  - rewrite Z2Nat.id by lia. apply byte_of_Z_of_byte.
  - apply in_seq. lia.
Qed.

Lemma for_all_bytes (P : byte -> bool) :
  forallb P all_bytes = true -> forall b, P b = true.
Proof.
  intros H b. rewrite forallb_forall in H. apply H, in_all_bytes.
Qed.

(** Shifting a value of [w] bits into the accumulator is a multiply-add:
    the two operands of the [lor] have no bit in common. *)
Lemma shift_in_add (w acc x : Z) :
  0 <= w -> 0 <= x < 2 ^ w -> shift_in w acc x = acc * 2 ^ w + x.
Proof.
  intros Hw Hx. unfold shift_in.
  rewrite <- Z.shiftl_mul_pow2 by assumption.
  rewrite <- Z.add_lor_land.
  assert (Hdisj : Z.land (Z.shiftl acc w) x = 0).
  { apply Z.bits_inj'. intros i Hi.
    rewrite Z.land_spec, Z.bits_0.
    destruct (Z.lt_ge_cases i w) as [Hlt | Hge].
    - rewrite Z.shiftl_spec_low by assumption. reflexivity.
    - rewrite <- (Z.mod_small x (2 ^ w)) by assumption.
      rewrite Z.mod_pow2_bits_high by lia. apply andb_false_r. }
  rewrite Hdisj. lia.
Qed.

Lemma sextet_div (n k : Z) : 0 <= k -> sextet n k = (n / 2 ^ k) mod 64.
Proof.
  intros Hk. unfold sextet.
  rewrite Z.shiftr_div_pow2 by assumption.
  change 63 with (Z.ones 6). rewrite Z.land_ones by lia. reflexivity.
Qed.

Lemma octet_div (n k : Z) : 0 <= k -> octet n k = (n / 2 ^ k) mod 256.
Proof.
  intros Hk. unfold octet.
  rewrite Z.shiftr_div_pow2 by assumption.
  change 255 with (Z.ones 8). rewrite Z.land_ones by lia. reflexivity.
Qed.

Lemma sextet_range (n k : Z) : 0 <= k -> 0 <= sextet n k < 64.
Proof.
  intros Hk. rewrite sextet_div by assumption. apply Z.mod_pos_bound. lia.
Qed.

Lemma group24_add (a b c : Z) :
  0 <= b < 256 -> 0 <= c < 256 -> group24 a b c = a * 65536 + b * 256 + c.
Proof.
  intros Hb Hc. unfold group24.
  rewrite !shift_in_add by (simpl; lia). simpl. lia.
Qed.

Lemma ungroup24_add (s0 s1 s2 s3 : Z) :
  0 <= s1 < 64 -> 0 <= s2 < 64 -> 0 <= s3 < 64 ->
  ungroup24 s0 s1 s2 s3 = s0 * 262144 + s1 * 4096 + s2 * 64 + s3.
Proof.
  intros H1 H2 H3. unfold ungroup24.
  rewrite !shift_in_add by (simpl; lia). simpl. lia.
Qed.

(** The four sextets of a 24-bit group put it together again. *)
Lemma ungroup24_sextets (n : Z) :
  0 <= n < 16777216 ->
  ungroup24 (sextet n 18) (sextet n 12) (sextet n 6) (sextet n 0) = n.
Proof.
  intros Hn.
  rewrite ungroup24_add by (apply sextet_range; lia).
  rewrite !sextet_div by lia.
  change (2 ^ 18) with 262144. change (2 ^ 12) with 4096.
  change (2 ^ 6) with 64. change (2 ^ 0) with 1.
  Z.div_mod_to_equations. lia.
Qed.

Lemma octets_of_group24 (a b c : Z) :
  0 <= a < 256 -> 0 <= b < 256 -> 0 <= c < 256 ->
  let n := group24 a b c in
  octet n 16 = a /\ octet n 8 = b /\ octet n 0 = c.
Proof.
  intros Ha Hb Hc n. subst n.
  rewrite group24_add by assumption.
  rewrite !octet_div by lia.
  change (2 ^ 16) with 65536. change (2 ^ 8) with 256. change (2 ^ 0) with 1.
  repeat split; Z.div_mod_to_equations; lia.
Qed.

Lemma group24_range (a b c : Z) :
  0 <= a < 256 -> 0 <= b < 256 -> 0 <= c < 256 ->
  0 <= group24 a b c < 16777216.
Proof.
  intros Ha Hb Hc. rewrite group24_add by assumption. lia.
Qed.

(** A group whose last byte (last two bytes) is zero has its last sextet
    (last two sextets) zero: the padded tails lose nothing. *)
Lemma sextet_0_of_short (a b : Z) :
  0 <= a < 256 -> 0 <= b < 256 -> sextet (group24 a b 0) 0 = 0.
Proof.
  intros Ha Hb. rewrite group24_add by lia. rewrite sextet_div by lia.
  change (2 ^ 0) with 1. Z.div_mod_to_equations. lia.
Qed.

Lemma sextet_6_of_short (a : Z) :
  0 <= a < 256 -> sextet (group24 a 0 0) 6 = 0.
Proof.
  intros Ha. rewrite group24_add by lia. rewrite sextet_div by lia.
  change (2 ^ 6) with 64. Z.div_mod_to_equations. lia.
Qed.

(** ** Base64: the alphabet *)

Lemma in_sextets (i : Z) : 0 <= i < 64 -> In i sextets.
Proof.
  intros Hi. unfold sextets. apply in_map_iff. exists (Z.to_nat i).
  split; [lia | apply in_seq; lia].
Qed.

Lemma for_all_sextets (P : Z -> bool) :
  forallb P sextets = true -> forall i, 0 <= i < 64 -> P i = true.
Proof.
  intros H i Hi. rewrite forallb_forall in H. apply H, in_sextets, Hi.
Qed.

Lemma a2b_b2a (i : Z) : 0 <= i < 64 -> a2b (b2a i) = Some i.
Proof.
  intros Hi.
  pose proof (for_all_sextets
    (fun i => match a2b (b2a i) with Some j => Z.eqb j i | None => false end)
    eq_refl i Hi) as H.
  simpl in H. destruct (a2b (b2a i)) as [j|]; [|discriminate].
  apply Z.eqb_eq in H. congruence.
Qed.

Lemma b2a_not_pad (i : Z) : 0 <= i < 64 -> Byte.eqb (b2a i) pad = false.
Proof.
  intros Hi.
  apply negb_true_iff.
  exact (for_all_sextets (fun i => negb (Byte.eqb (b2a i) pad)) eq_refl i Hi).
Qed.

Lemma b2a_is_b64_char (i : Z) : 0 <= i < 64 -> is_b64_char (b2a i) = true.
Proof.
  intros Hi. unfold is_b64_char. rewrite a2b_b2a by assumption. reflexivity.
Qed.

(** ** Base64: encoder and decoder *)

(** Induction over a byte string three bytes at a time, as the encoder
    reads it. *)
Lemma list_ind3 {A} (P : list A -> Prop) :
  P [] -> (forall a, P [a]) -> (forall a b, P [a; b]) ->
  (forall a b c rest, P rest -> P (a :: b :: c :: rest)) ->
  forall l, P l.
Proof.
  intros H0 H1 H2 H3.
  assert (H : forall l, P l /\ (forall a, P (a :: l)) /\ (forall a b, P (a :: b :: l))).
  { induction l as [|x l (IH0 & IH1 & IH2)]; [auto|].
    split; [apply IH1|]. split; [intros a; apply IH2|].
    intros a b. apply H3, IH0. }
  intros l. apply H.
Qed.

Lemma b64encode_cons3 (a b c : byte) (rest : list byte) :
  b64encode (a :: b :: c :: rest) =
    let n := group24 (Z_of_byte a) (Z_of_byte b) (Z_of_byte c) in
    b2a (sextet n 18) :: b2a (sextet n 12) :: b2a (sextet n 6)
      :: b2a (sextet n 0) :: b64encode rest.
Proof. reflexivity. Qed.

Lemma b64decode_cons4 (c0 c1 c2 c3 : byte) (rest : list byte) :
  Byte.eqb c3 pad = false ->
  b64decode (c0 :: c1 :: c2 :: c3 :: rest) =
    match decode_full c0 c1 c2 c3, b64decode rest with
    | Some x, Some y => Some (x ++ y)
    | _, _ => None
    end.
Proof.
  intros Hc3. destruct rest as [|r rest]; [|reflexivity].
  simpl. unfold decode_last. rewrite Hc3.
  destruct (decode_full c0 c1 c2 c3); [rewrite app_nil_r|]; reflexivity.
Qed.

Lemma decode_full_group (a b c : byte) :
  let n := group24 (Z_of_byte a) (Z_of_byte b) (Z_of_byte c) in
  decode_full (b2a (sextet n 18)) (b2a (sextet n 12))
              (b2a (sextet n 6)) (b2a (sextet n 0)) = Some [a; b; c].
Proof.
  intros n. subst n. unfold decode_full.
  rewrite !a2b_b2a by (apply sextet_range; lia).
  pose proof (Z_of_byte_range a) as Ha. pose proof (Z_of_byte_range b) as Hb.
  pose proof (Z_of_byte_range c) as Hc.
  rewrite ungroup24_sextets by (apply group24_range; assumption).
  destruct (octets_of_group24 _ _ _ Ha Hb Hc) as (-> & -> & ->).
  rewrite !byte_of_Z_of_byte. reflexivity.
Qed.

Lemma decode_last_one (a : byte) :
  let n := group24 (Z_of_byte a) 0 0 in
  decode_last (b2a (sextet n 18)) (b2a (sextet n 12)) pad pad = Some [a].
Proof.
  intros n. unfold decode_last.
  change (Byte.eqb pad pad) with true. cbv iota.
  rewrite !a2b_b2a by (apply sextet_range; lia).
  pose proof (Z_of_byte_range a) as Ha.
  replace (ungroup24 (sextet n 18) (sextet n 12) 0 0) with n.
  2:{ rewrite <- (ungroup24_sextets n) at 1 by (apply group24_range; lia).
      subst n. rewrite sextet_6_of_short, sextet_0_of_short by lia.
      reflexivity. }
  subst n.
  destruct (octets_of_group24 (Z_of_byte a) 0 0) as (-> & _); [lia..|].
  rewrite byte_of_Z_of_byte. reflexivity.
Qed.

Lemma decode_last_two (a b : byte) :
  let n := group24 (Z_of_byte a) (Z_of_byte b) 0 in
  decode_last (b2a (sextet n 18)) (b2a (sextet n 12)) (b2a (sextet n 6)) pad
    = Some [a; b].
Proof.
  intros n. unfold decode_last.
  change (Byte.eqb pad pad) with true. cbv iota.
  rewrite b2a_not_pad by (apply sextet_range; lia).
  rewrite !a2b_b2a by (apply sextet_range; lia).
  pose proof (Z_of_byte_range a) as Ha. pose proof (Z_of_byte_range b) as Hb.
  replace (ungroup24 (sextet n 18) (sextet n 12) (sextet n 6) 0) with n.
  2:{ rewrite <- (ungroup24_sextets n) at 1 by (apply group24_range; lia).
      subst n. rewrite sextet_0_of_short by lia. reflexivity. }
  subst n.
  destruct (octets_of_group24 (Z_of_byte a) (Z_of_byte b) 0) as (-> & -> & _);
    [lia..|].
  rewrite !byte_of_Z_of_byte. reflexivity.
Qed.

(** Decoding what the encoder wrote gives the bytes back. *)
Lemma b64decode_b64encode (s : list byte) : b64decode (b64encode s) = Some s.
Proof.
  induction s as [|a|a b|a b c rest IH] using list_ind3.
  - reflexivity.
  - apply decode_last_one.
  - apply decode_last_two.
  - rewrite b64encode_cons3. cbv zeta.
    rewrite b64decode_cons4 by (apply b2a_not_pad, sextet_range; lia).
    rewrite decode_full_group, IH. reflexivity.
Qed.

(** The encoder writes alphabet characters and padding only. *)
Lemma b64encode_chars (s : list byte) : forallb is_b64_char (b64encode s) = true.
Proof.
  assert (Hc : forall n k, 0 <= k -> is_b64_char (b2a (sextet n k)) = true)
    by (intros; apply b2a_is_b64_char, sextet_range; assumption).
  induction s as [|a|a b|a b c rest IH] using list_ind3.
  - reflexivity.
  - cbn [b64encode forallb]. cbv zeta. rewrite !Hc by lia. reflexivity.
  - cbn [b64encode forallb]. cbv zeta. rewrite !Hc by lia. reflexivity.
  - rewrite b64encode_cons3. cbv zeta. cbn [forallb].
    rewrite !Hc by lia. exact IH.
Qed.

Lemma b64_char_ascii (c : byte) : is_b64_char c = true -> Py.is_ascii c = true.
Proof.
  intros H.
  pose proof (for_all_bytes (fun c => implb (is_b64_char c) (Py.is_ascii c))
                eq_refl c) as Himp.
  simpl in Himp. rewrite H in Himp. exact Himp.
Qed.

Lemma b64encode_is_ascii (s : list byte) :
  forallb Py.is_ascii (b64encode s) = true.
Proof.
  apply forallb_forall. intros c Hc. apply b64_char_ascii.
  pose proof (b64encode_chars s) as H. rewrite forallb_forall in H. auto.
Qed.

End Base64_facts.

(** ** The run time: what each call does to the state *)

Module Py_facts.

Ltac step_m :=
  cbv beta iota delta
    [mbind M_bind M_ret mret bind ret raise try_except get_files put_files log
     print files console trace negb orb].

Lemma os_makedirs_world env p (fs : gmap string node) c t :
  os_makedirs env p true (World fs c t) =
    match fs !! p with
    | Some Dir => (Ok tt, World fs c (t ++ [Mkdir p; Stat p]))
    | Some (File _) =>
        (Raise (default (FileExistsError p) (mkdir_fault env)),
         World fs c (t ++ [Mkdir p; Stat p]))
    | None =>
        match mkdir_fault env with
        | Some e => (Raise e, World fs c (t ++ [Mkdir p; Stat p]))
        | None => (Ok tt, World (<[p := Dir]> fs) c (t ++ [Mkdir p]))
        end
    end.
Proof.
  unfold os_makedirs, os_mkdir, os_path_isdir. step_m.
  destruct (mkdir_fault env) as [e|]; step_m;
    destruct (fs !! p) as [[d|]|] eqn:Hp; step_m;
    rewrite <- ?app_assoc, ?Hp; reflexivity.
Qed.

Lemma os_path_exists_world p (fs : gmap string node) c t :
  os_path_exists p (World fs c t) =
    (Ok (bool_decide (is_Some (fs !! p))), World fs c (t ++ [Stat p])).
Proof. reflexivity. Qed.

Lemma read_binary_world env p (fs : gmap string node) c t :
  read_binary env p (World fs c t) =
    (match read_fault env, fs !! p with
     | Some e, _ => Raise e
     | None, None => Raise (FileNotFoundError p)
     | None, Some Dir => Raise (IsADirectoryError p)
     | None, Some (File data) => Ok data
     end, World fs c (t ++ [OpenRead p])).
Proof.
  unfold read_binary. step_m.
  destruct (read_fault env); [reflexivity|].
  step_m. destruct (fs !! p) as [[d|]|]; reflexivity.
Qed.

(** The encoder's output is ASCII, so decoding it as UTF-8 cannot fail. *)
Lemma bytes_decode_b64 (B : list byte) (w : world) :
  bytes_decode_utf8 (Base64.b64encode B) w =
    (Ok (string_of_list_byte (Base64.b64encode B)), w).
Proof.
  unfold bytes_decode_utf8. rewrite Base64_facts.b64encode_is_ascii. reflexivity.
Qed.

Lemma dirname_output_file : dirname output_file = "lib".
Proof. reflexivity. Qed.

Lemma write_text_world env (fs : gmap string node) c t s :
  fs !! "lib" = Some Dir ->
  write_text env output_file s (World fs c t) =
    match open_w_fault env with
    | Some e => (Raise e, World fs c (t ++ [OpenWrite output_file]))
    | None =>
        if is_dir fs output_file then
          (Raise (IsADirectoryError output_file),
           World fs c (t ++ [OpenWrite output_file]))
        else
          match flush_fault env with
          | Some (k, e) =>
              (Raise e,
               World (<[output_file := File (firstn k (encode_text s))]> fs) c
                     (t ++ [OpenWrite output_file; WriteFile output_file]))
          | None =>
              (Ok tt,
               World (<[output_file := File (encode_text s)]> fs) c
                     (t ++ [OpenWrite output_file; WriteFile output_file]))
          end
    end.
Proof.
  intros Hlib. unfold write_text, open_w, write_bytes, is_dir.
  rewrite dirname_output_file. step_m.
  destruct (open_w_fault env) as [e|]; [reflexivity|]. step_m.
  rewrite Hlib.
  destruct (fs !! output_file) as [[d|]|] eqn:Ho; step_m; try reflexivity.
  all: destruct (flush_fault env) as [[k e]|]; step_m;
    rewrite insert_insert_eq, <- app_assoc; reflexivity.
Qed.

End Py_facts.

(** ** The script: the normal form of a run *)

Module Run_facts.
Import Py_facts.

Lemma lib_ne_source : "lib" ≠ source_file.
Proof. discriminate. Qed.

Lemma lib_ne_output : "lib" ≠ output_file.
Proof. discriminate. Qed.

Lemma output_ne_source : output_file ≠ source_file.
Proof. discriminate. Qed.

Lemma output_ne_lib : output_file ≠ "lib".
Proof. discriminate. Qed.

Ltac ne_paths :=
  first [apply lib_ne_source | apply lib_ne_output | apply output_ne_source
        | apply output_ne_lib].

(** The [try] statement, run where ['lib'] is a directory. *)
Lemma try_bundle_world env (fs : gmap string node) c t :
  fs !! "lib" = Some Dir ->
  try_except (bundle env) (fun e => print (error_line e)) (World fs c t) =
    let t2 := t ++ [OpenRead source_file] in
    let t3 := t2 ++ [OpenWrite output_file] in
    let t4 := t3 ++ [WriteFile output_file] in
    match read_fault env, fs !! source_file with
    | Some e, _ => (Ok tt, World fs (c ++ [error_line e]) t2)
    | None, None =>
        (Ok tt, World fs (c ++ [error_line (FileNotFoundError source_file)]) t2)
    | None, Some Dir =>
        (Ok tt, World fs (c ++ [error_line (IsADirectoryError source_file)]) t2)
    | None, Some (File B) =>
        match open_w_fault env with
        | Some e => (Ok tt, World fs (c ++ [error_line e]) t3)
        | None =>
            if is_dir fs output_file then
              (Ok tt,
               World fs (c ++ [error_line (IsADirectoryError output_file)]) t3)
            else
              match flush_fault env with
              | Some (k, e) =>
                  (Ok tt,
                   World (<[output_file := File (firstn k (artifact B))]> fs)
                         (c ++ [error_line e]) t4)
              | None =>
                  (Ok tt,
                   World (<[output_file := File (artifact B)]> fs)
                         (c ++ success_lines) t4)
              end
        end
    end.
Proof.
  intros Hlib. unfold bundle.
  cbv beta iota delta [mbind M_bind bind try_except].
  rewrite read_binary_world.
  destruct (read_fault env) as [e|]; [reflexivity|].
  destruct (fs !! source_file) as [[B|]|] eqn:Hs; try reflexivity.
  rewrite bytes_decode_b64, write_text_world by exact Hlib.
  fold (artifact B).
  destruct (open_w_fault env) as [e|]; [reflexivity|].
  destruct (is_dir fs output_file); [reflexivity|].
  destruct (flush_fault env) as [[k e]|]; cbv zeta; unfold print, success_lines;
    cbn [files console trace]; rewrite <- !app_assoc; reflexivity.
Qed.

(** A run, case by case: the directory, the existence check, the [try]. *)
Lemma run_eq env (fs : gmap string node) :
  run env fs =
    if mkdir_ok env fs then
      let fs1 := <["lib" := Dir]> fs in
      let t1 := match fs !! "lib" with
                | Some _ => [Mkdir "lib"; Stat "lib"]
                | None => [Mkdir "lib"]
                end ++ [Stat source_file] in
      let t2 := t1 ++ [OpenRead source_file] in
      let t3 := t2 ++ [OpenWrite output_file] in
      let t4 := t3 ++ [WriteFile output_file] in
      match fs !! source_file with
      | None => (Ok tt, World fs1 [not_found_message] t1)
      | Some Dir =>
          (Ok tt,
           World fs1 [error_line (default (IsADirectoryError source_file)
                                          (read_fault env))] t2)
      | Some (File B) =>
          match read_fault env with
          | Some e => (Ok tt, World fs1 [error_line e] t2)
          | None =>
              match open_w_fault env with
              | Some e => (Ok tt, World fs1 [error_line e] t3)
              | None =>
                  if is_dir fs output_file then
                    (Ok tt,
                     World fs1 [error_line (IsADirectoryError output_file)] t3)
                  else
                    match flush_fault env with
                    | Some (k, e) =>
                        (Ok tt,
                         World (<[output_file := File (firstn k (artifact B))]> fs1)
                               [error_line e] t4)
                    | None =>
                        (Ok tt,
                         World (<[output_file := File (artifact B)]> fs1)
                               success_lines t4)
                    end
              end
          end
      end
    else
      (Raise (default (FileExistsError "lib") (mkdir_fault env)),
       World fs [] [Mkdir "lib"; Stat "lib"]).
Proof.
  assert (Hstep : forall fs1 t1,
    fs1 !! "lib" = Some Dir ->
    fs1 !! source_file = fs !! source_file ->
    is_dir fs1 output_file = is_dir fs output_file ->
    (if negb (bool_decide (is_Some (fs !! source_file)))
     then print not_found_message
     else try_except (bundle env) (fun e => print (error_line e)))
      (World fs1 [] t1) =
    match fs !! source_file with
    | None => (Ok tt, World fs1 [not_found_message] t1)
    | Some Dir =>
        (Ok tt,
         World fs1 [error_line (default (IsADirectoryError source_file)
                                        (read_fault env))]
               (t1 ++ [OpenRead source_file]))
    | Some (File B) =>
        match read_fault env with
        | Some e => (Ok tt, World fs1 [error_line e] (t1 ++ [OpenRead source_file]))
        | None =>
            match open_w_fault env with
            | Some e =>
                (Ok tt, World fs1 [error_line e]
                   ((t1 ++ [OpenRead source_file]) ++ [OpenWrite output_file]))
            | None =>
                if is_dir fs output_file then
                  (Ok tt,
                   World fs1 [error_line (IsADirectoryError output_file)]
                     ((t1 ++ [OpenRead source_file]) ++ [OpenWrite output_file]))
                else
                  match flush_fault env with
                  | Some (k, e) =>
                      (Ok tt,
                       World (<[output_file := File (firstn k (artifact B))]> fs1)
                         [error_line e]
                         (((t1 ++ [OpenRead source_file])
                             ++ [OpenWrite output_file]) ++ [WriteFile output_file]))
                  | None =>
                      (Ok tt,
                       World (<[output_file := File (artifact B)]> fs1)
                         success_lines
                         (((t1 ++ [OpenRead source_file])
                             ++ [OpenWrite output_file]) ++ [WriteFile output_file]))
                  end
            end
        end
    end).
  { intros fs1 t1 Hlib Hsrc Hout.
    destruct (fs !! source_file) as [n|] eqn:Hs.
    - rewrite bool_decide_eq_true_2 by eauto. cbn [negb].
      rewrite try_bundle_world by exact Hlib. cbv zeta.
      rewrite Hsrc, Hout.
      destruct n as [B|]; destruct (read_fault env); reflexivity.
    - rewrite bool_decide_eq_false_2 by (intros [? ?]; discriminate).
      reflexivity. }
  unfold run, create_template_js, mkdir_ok.
  cbv beta iota delta [mbind M_bind bind].
  rewrite os_makedirs_world.
  destruct (fs !! "lib") as [[d|]|] eqn:Hlib; [reflexivity| |].
  - rewrite os_path_exists_world, (insert_id fs "lib" Dir Hlib).
    apply Hstep; auto.
  - destruct (mkdir_fault env) as [e|]; [reflexivity|].
    rewrite os_path_exists_world, lookup_insert_ne by apply lib_ne_source.
    apply Hstep.
    + apply lookup_insert_eq.
    + apply lookup_insert_ne, lib_ne_source.
    + unfold is_dir. rewrite lookup_insert_ne by apply lib_ne_output. reflexivity.
Qed.

End Run_facts.

(** ** The artifact as text *)

Module Artifact_facts.
Import Base64 Base64_facts.

Lemma b64_char_plain (c : byte) : is_b64_char c = true -> js_sq_plain c = true.
Proof.
  intros H.
  pose proof (for_all_bytes (fun c => implb (is_b64_char c) (js_sq_plain c))
                eq_refl c) as Himp.
  simpl in Himp. rewrite H in Himp. exact Himp.
Qed.

Lemma b64encode_plain (B : list byte) : forallb js_sq_plain (b64encode B) = true.
Proof.
  apply forallb_forall. intros c Hc. apply b64_char_plain.
  pose proof (b64encode_chars B) as H. rewrite forallb_forall in H. auto.
Qed.

Lemma plain_not_quote (c : byte) :
  js_sq_plain c = true -> Byte.eqb c "'" = false.
Proof.
  unfold js_sq_plain. intros H. apply negb_true_iff in H.
  destruct (Byte.eqb c "'"); [discriminate H | reflexivity].
Qed.


(** A character of the text is a quote exactly when its byte is. *)
Lemma ascii_quote_eqb (c : byte) :
  Ascii.eqb (ascii_of_byte c) "'" = Byte.eqb c "'".
Proof.
  apply Bool.eqb_true_iff.
  exact (for_all_bytes
    (fun c => Bool.eqb (Ascii.eqb (ascii_of_byte c) "'") (Byte.eqb c "'"))
    eq_refl c).
Qed.

Lemma string_of_bytes_cons (c : byte) (bs : list byte) :
  string_of_list_byte (c :: bs)
    = String (ascii_of_byte c) (string_of_list_byte bs).
Proof. reflexivity. Qed.

Lemma append_cons (c : ascii) (s t : string) :
  String c s +:+ t = String c (s +:+ t).
Proof. reflexivity. Qed.

Lemma list_byte_of_string_app (s t : string) :
  list_byte_of_string (s +:+ t) = list_byte_of_string s ++ list_byte_of_string t.
Proof.
  induction s as [|c s IH]; [reflexivity|].
  change (byte_of_ascii c :: list_byte_of_string (s +:+ t)
          = byte_of_ascii c :: (list_byte_of_string s ++ list_byte_of_string t)).
  rewrite IH. reflexivity.
Qed.

(** Reading up to the closing quote returns a quote-free payload whole. *)
Lemma until_quote_plain (bs : list byte) (rest : string) :
  forallb js_sq_plain bs = true ->
  until_quote (string_of_list_byte bs +:+ String "'" rest)
    = Some (string_of_list_byte bs).
Proof.
  induction bs as [|c bs IH]; intros Hbs.
  - reflexivity.
  - cbn [forallb] in Hbs. apply andb_true_iff in Hbs as [Hc Hbs].
    rewrite string_of_bytes_cons, append_cons. cbn [until_quote].
    rewrite ascii_quote_eqb, (plain_not_quote _ Hc), (IH Hbs). reflexivity.
Qed.

Lemma between_quotes_js (encoded : string) :
  between_quotes (js_content encoded) = until_quote (encoded +:+ "';").
Proof. reflexivity. Qed.

(** What is read back from the artifact of [B] is [B]. *)
Lemma payload_of_artifact (B : list byte) : payload_of (artifact B) = Some B.
Proof.
  unfold payload_of, artifact, encode_text.
  rewrite string_of_list_byte_of_string, between_quotes_js.
  rewrite until_quote_plain by apply b64encode_plain.
  change (b64decode (list_byte_of_string (string_of_list_byte (b64encode B)))
          = Some B).
  rewrite list_byte_of_string_of_list_byte. apply b64decode_b64encode.
Qed.

Lemma strip_prefix_app (pre s : list byte) : strip_prefix pre (pre ++ s) = Some s.
Proof.
  induction pre as [|p pre IH]; [reflexivity|].
  cbn [app strip_prefix]. rewrite (Byte.byte_dec_lb eq_refl). exact IH.
Qed.

Lemma literal_tail_plain (bs : list byte) :
  forallb js_sq_plain bs = true ->
  literal_tail (bs ++ list_byte_of_string "';") = true.
Proof.
  induction bs as [|c bs IH]; intros Hbs; [reflexivity|].
  cbn [forallb] in Hbs. apply andb_true_iff in Hbs as [Hc Hbs].
  cbn [app literal_tail].
  rewrite (plain_not_quote _ Hc), Hc, (IH Hbs). reflexivity.
Qed.

Lemma artifact_well_formed (B : list byte) :
  well_formed_assignment (artifact B) = true.
Proof.
  unfold well_formed_assignment, artifact, encode_text, js_content.
  rewrite list_byte_of_string_app, strip_prefix_app, list_byte_of_string_app.
  rewrite list_byte_of_string_of_list_byte.
  apply literal_tail_plain, b64encode_plain.
Qed.


End Artifact_facts.

(** ** Successful runs *)

Module Success_facts.
Import Run_facts.

Lemma absent_true {A} (o : option A) : absent o = true -> o = None.
Proof. destruct o; [discriminate | reflexivity]. Qed.

(** With the workbook in place and no call failing, the run succeeds and
    leaves the directory and the artifact. *)
Lemma run_success env (fs : gmap string node) B :
  fs !! source_file = Some (File B) -> io_ok env fs = true ->
  succeeded (run env fs)
  /\ files_after (run env fs)
     = <[output_file := File (artifact B)]> (<["lib" := Dir]> fs).
Proof.
  intros Hsrc Hok. unfold io_ok, rw_ok in Hok.
  apply andb_true_iff in Hok as [Hok Hrw].
  apply andb_true_iff in Hrw as [Hrw Hout].
  apply andb_true_iff in Hrw as [Hrw Hflush].
  apply andb_true_iff in Hrw as [Hread Hopen].
  unfold succeeded, outcome, printed, files_after.
  rewrite run_eq, Hok, Hsrc. cbv zeta.
  rewrite (absent_true (read_fault env)), (absent_true (open_w_fault env)),
    (absent_true (flush_fault env)) by assumption.
  destruct (is_dir fs output_file); [discriminate|].
  auto.
Qed.

(** Conversely the success report is printed in that case only. *)
Lemma succeeded_inv env (fs : gmap string node) :
  succeeded (run env fs) ->
  exists B, fs !! source_file = Some (File B) /\ io_ok env fs = true.
Proof.
  unfold succeeded, outcome, printed, io_ok, rw_ok.
  rewrite run_eq. cbv zeta.
  destruct (mkdir_ok env fs); [|intros [? _]; discriminate].
  destruct (fs !! source_file) as [[B|]|]; try (intros [_ ?]; discriminate).
  destruct (read_fault env); [intros [_ ?]; discriminate|].
  destruct (open_w_fault env); [intros [_ ?]; discriminate|].
  destruct (is_dir fs output_file); [intros [_ ?]; discriminate|].
  destruct (flush_fault env) as [[k e]|]; [intros [_ ?]; discriminate|].
  intros _. exists B. auto.
Qed.

(** Putting the workbook in place does not change whether reading and
    writing can succeed. *)
Lemma rw_ok_insert_source env (fs : gmap string node) n :
  rw_ok env (<[source_file := n]> fs) = rw_ok env fs.
Proof.
  unfold rw_ok, is_dir. rewrite lookup_insert_ne; [reflexivity|].
  intros H. symmetry in H. exact (output_ne_source H).
Qed.

Lemma mkdir_ok_of_dir env (fs : gmap string node) :
  fs !! "lib" = Some Dir -> mkdir_ok env fs = true.
Proof. intros H. unfold mkdir_ok. rewrite H. reflexivity. Qed.

End Success_facts.

(** ** Running twice *)

Module Rerun_facts.
Import Run_facts Success_facts.

(** The file tree a run leaves, case by case. *)
Lemma files_after_run env (fs : gmap string node) :
  files_after (run env fs) =
    if mkdir_ok env fs then
      match fs !! source_file, read_fault env, open_w_fault env,
            is_dir fs output_file with
      | Some (File B), None, None, false =>
          <[output_file :=
              File match flush_fault env with
                   | Some (k, _) => firstn k (artifact B)
                   | None => artifact B
                   end]> (<["lib" := Dir]> fs)
      | _, _, _, _ => <["lib" := Dir]> fs
      end
    else fs.
Proof.
  unfold files_after. rewrite run_eq. cbv zeta.
  repeat case_match; reflexivity.
Qed.

(** X11.  Running again in the same environment changes nothing more:
    the file tree after a second run is the file tree after the first,
    whether the runs succeed, report an error or raise. *)
Lemma run_idempotent env (fs : gmap string node) :
  files_after (run env (files_after (run env fs))) = files_after (run env fs).
Proof.
  rewrite (files_after_run env fs).
  destruct (mkdir_ok env fs) eqn:Hok.
  2:{ rewrite files_after_run, Hok. reflexivity. }
  set (fs1 := <["lib" := Dir]> fs).
  assert (Hlib1 : fs1 !! "lib" = Some Dir) by apply lookup_insert_eq.
  assert (Hsrc1 : fs1 !! source_file = fs !! source_file)
    by (apply lookup_insert_ne; ne_paths).
  assert (Hdir1 : is_dir fs1 output_file = is_dir fs output_file)
    by (unfold is_dir, fs1; rewrite lookup_insert_ne by ne_paths; reflexivity).
  assert (Hkeep : files_after (run env fs1) =
                  match fs !! source_file, read_fault env, open_w_fault env,
                        is_dir fs output_file with
                  | Some (File B), None, None, false =>
                      <[output_file :=
                          File match flush_fault env with
                               | Some (k, _) => firstn k (artifact B)
                               | None => artifact B
                               end]> fs1
                  | _, _, _, _ => fs1
                  end).
  { rewrite files_after_run, (mkdir_ok_of_dir env fs1 Hlib1), Hsrc1, Hdir1.
    rewrite (insert_id fs1 "lib" Dir Hlib1). reflexivity. }
  destruct (fs !! source_file) as [[B|]|] eqn:Hsrc; try exact Hkeep.
  destruct (read_fault env) eqn:Hr; [exact Hkeep|].
  destruct (open_w_fault env) eqn:Ho; [exact Hkeep|].
  destruct (is_dir fs output_file) eqn:Hd; [exact Hkeep|].
  set (x := File _). set (fs2 := <[output_file := x]> fs1).
  assert (Hlib2 : fs2 !! "lib" = Some Dir)
    by (unfold fs2; rewrite lookup_insert_ne by ne_paths; exact Hlib1).
  rewrite files_after_run, (mkdir_ok_of_dir env fs2 Hlib2).
  replace (fs2 !! source_file) with (Some (File B))
    by (unfold fs2; rewrite lookup_insert_ne by ne_paths; congruence).
  rewrite Hr, Ho.
  replace (is_dir fs2 output_file) with false
    by (unfold is_dir, fs2, x; rewrite lookup_insert_eq; reflexivity).
  rewrite (insert_id fs2 "lib" Dir Hlib2).
  apply insert_id. unfold fs2. apply lookup_insert_eq.
Qed.

End Rerun_facts.

(** * The claims *)

Import Base64 Base64_facts Artifact_facts Run_facts Success_facts.

(** C1.  Round trip: with the bytes [B] in the source file and no call
    of the run failing, the run succeeds and writes an output file whose
    text between the two single quotes base64-decodes to exactly [B]. *)
Theorem artifact_decodes_to_source env (fs : gmap string node) B :
  fs !! source_file = Some (File B) -> io_ok env fs = true ->
  succeeded (run env fs)
  /\ exists content,
       files_after (run env fs) !! output_file = Some (File content)
       /\ payload_of content = Some B.
Proof.
  intros Hsrc Hok. destruct (run_success env fs B Hsrc Hok) as [Hs Hf].
  split; [exact Hs|]. exists (artifact B). split.
  - rewrite Hf. apply lookup_insert_eq.
  - apply payload_of_artifact.
Qed.

Lemma artifact_decodes_to_source_witness :
  succeeded (run no_faults fs_workbook_only)
  /\ exists content,
       files_after (run no_faults fs_workbook_only) !! output_file
         = Some (File content)
       /\ payload_of content = Some workbook_Man.
Proof.
  apply artifact_decodes_to_source;
    [apply lookup_singleton_eq | vm_compute; reflexivity].
Defined.



(** C3 fails as stated: with the source file missing and ['lib'] a
    regular file, [os.makedirs] raises before the existence check is
    reached; nothing is printed and the exception reaches the caller. *)
Lemma missing_source_may_raise :
  fs_no_source_lib_is_file !! source_file = None
  /\ ~ missing_source_handled no_faults fs_no_source_lib_is_file.
Proof.
  split; [reflexivity|].
  unfold missing_source_handled. intros (_ & _ & H).
  vm_compute in H. discriminate H.
Qed.

(** C3, amended.  When the source file does not exist, no run writes or
    modifies the output file.  If the directory ['lib'] is there or can be
    made, the run prints the "not found" message and nothing else and
    returns normally, and once the source file is created a further run
    (its reading and writing meeting no failure) succeeds.  If the
    creation of ['lib'] fails, its exception is raised to the caller and
    nothing is printed. *)
Theorem missing_source_is_reported env (fs : gmap string node) :
  fs !! source_file = None ->
  let r := run env fs in
  files_after r !! output_file = fs !! output_file
  /\ if mkdir_ok env fs then
       outcome r = Ok tt
       /\ printed r = [not_found_message]
       /\ forall env' B,
            rw_ok env' (files_after r) = true ->
            succeeded (run env' (<[source_file := File B]> (files_after r)))
     else
       outcome r = Raise (default (FileExistsError "lib") (mkdir_fault env))
       /\ printed r = [].
Proof.
  intros Hsrc r. subst r.
  unfold outcome, printed, files_after.
  rewrite run_eq, Hsrc. cbv zeta.
  destruct (mkdir_ok env fs); cbn [fst snd files console].
  - split; [apply lookup_insert_ne, lib_ne_output|].
    split; [reflexivity|]. split; [reflexivity|].
    intros env' B Hrw.
    apply (run_success env' _ B); [apply lookup_insert_eq|].
    unfold io_ok. rewrite rw_ok_insert_source, Hrw, andb_true_r.
    apply mkdir_ok_of_dir.
    rewrite lookup_insert_ne by (intros H; symmetry in H; exact (lib_ne_source H)).
    apply lookup_insert_eq.
  - repeat split; reflexivity.
Qed.

Lemma missing_source_is_reported_witness :
  let r := run no_faults ∅ in
  files_after r !! output_file = (∅ : gmap string node) !! output_file
  /\ if mkdir_ok no_faults ∅ then
       outcome r = Ok tt
       /\ printed r = [not_found_message]
       /\ forall env' B,
            rw_ok env' (files_after r) = true ->
            succeeded (run env' (<[source_file := File B]> (files_after r)))
     else
       outcome r = Raise (default (FileExistsError "lib") (mkdir_fault no_faults))
       /\ printed r = [].
Proof.
  apply missing_source_is_reported. apply lookup_empty.
Defined.

(** C4.  With the source file holding [B], two consecutive runs whose
    calls all succeed both write the artifact of [B]: the second run
    leaves the output file, and the whole file tree, byte for byte as the
    first run left it. *)
Theorem rerun_is_identical env1 env2 (fs : gmap string node) B :
  fs !! source_file = Some (File B) ->
  io_ok env1 fs = true ->
  io_ok env2 (files_after (run env1 fs)) = true ->
  let r1 := run env1 fs in
  let r2 := run env2 (files_after r1) in
  succeeded r1 /\ succeeded r2
  /\ files_after r1 !! output_file = Some (File (artifact B))
  /\ files_after r2 !! output_file = files_after r1 !! output_file
  /\ files_after r2 = files_after r1.
Proof.
  intros Hsrc Hok1 Hok2 r1 r2. subst r1 r2.
  destruct (run_success env1 fs B Hsrc Hok1) as [Hs1 Hf1].
  assert (Hsrc1 : files_after (run env1 fs) !! source_file = Some (File B)).
  { rewrite Hf1, lookup_insert_ne by apply output_ne_source.
    rewrite lookup_insert_ne by apply lib_ne_source. exact Hsrc. }
  destruct (run_success env2 _ B Hsrc1 Hok2) as [Hs2 Hf2].
  assert (Hout1 : files_after (run env1 fs) !! output_file
                  = Some (File (artifact B)))
    by (rewrite Hf1; apply lookup_insert_eq).
  assert (Hlib1 : files_after (run env1 fs) !! "lib" = Some Dir).
  { rewrite Hf1, lookup_insert_ne by apply output_ne_lib.
    apply lookup_insert_eq. }
  assert (Hsame : files_after (run env2 (files_after (run env1 fs)))
                  = files_after (run env1 fs)).
  { rewrite Hf2, (insert_id _ "lib" Dir Hlib1). apply insert_id, Hout1. }
  repeat split; try assumption; try apply Hs1; try apply Hs2.
  rewrite Hsame. reflexivity.
Qed.

Lemma rerun_is_identical_witness :
  let r1 := run no_faults fs_workbook_only in
  let r2 := run no_faults (files_after r1) in
  succeeded r1 /\ succeeded r2
  /\ files_after r1 !! output_file = Some (File (artifact workbook_Man))
  /\ files_after r2 !! output_file = files_after r1 !! output_file
  /\ files_after r2 = files_after r1.
Proof.
  apply rerun_is_identical;
    [apply lookup_singleton_eq | vm_compute; reflexivity | vm_compute; reflexivity].
Defined.

(** C5 fails as stated: when the disk fills up after five bytes, the old
    artifact is gone and the file holds [windo], which is neither the old
    content nor the complete artifact. *)
Lemma interrupted_write_is_partial :
  ~ atomic_in_effect disk_full_after_5 fs_with_old_artifact.
Proof.
  unfold atomic_in_effect. intros [H | (a & Ha & H)].
  - vm_compute in H. discriminate H.
  - vm_compute in Ha. injection Ha as <-. vm_compute in H. discriminate H.
Qed.

(** C5, amended.  After any run the output file is exactly as it was
    before, or it holds the artifact of the workbook: all of it when the
    write met no error, and otherwise only the bytes that were written
    before the error (the file was truncated when it was opened).  The
    file is changed only by a run that got as far as writing: a failure
    before that (the directory, a missing or unreadable source, a refused
    open) leaves it exactly as it was. *)
Theorem artifact_unchanged_or_prefix env (fs : gmap string node) :
  let r := run env fs in
  files_after r !! output_file = fs !! output_file
  \/ exists B,
       fs !! source_file = Some (File B)
       /\ mkdir_ok env fs = true
       /\ read_fault env = None
       /\ open_w_fault env = None
       /\ is_dir fs output_file = false
       /\ files_after r !! output_file
          = Some (File match flush_fault env with
                       | Some (k, _) => firstn k (artifact B)
                       | None => artifact B
                       end).
Proof.
  intros r. subst r. unfold files_after. rewrite run_eq. cbv zeta.
  destruct (mkdir_ok env fs); [|left; reflexivity].
  destruct (fs !! source_file) as [[B|]|] eqn:Hsrc;
    try (left; apply lookup_insert_ne, lib_ne_output).
  destruct (read_fault env); [left; apply lookup_insert_ne, lib_ne_output|].
  destruct (open_w_fault env); [left; apply lookup_insert_ne, lib_ne_output|].
  destruct (is_dir fs output_file); [left; apply lookup_insert_ne, lib_ne_output|].
  right. exists B. repeat (split; [reflexivity|]).
  destruct (flush_fault env) as [[k e]|]; apply lookup_insert_eq.
Qed.

(** C6 fails as stated: where ['lib'] is a regular file, [os.makedirs]
    raises [FileExistsError] before the [try] block is entered, and the
    exception reaches the caller. *)
Lemma mkdir_error_escapes : ~ returns_normally no_faults fs_lib_is_file.
Proof. unfold returns_normally. vm_compute. discriminate. Qed.

(** C6, amended.  Once the directory ['lib'] is there or has been made,
    the function returns normally whatever fails afterwards: a missing
    source gives the "not found" message, a run with no failure gives the
    success report, and every failure of reading, encoding, opening or
    writing is caught and printed as one line [Error: ...].  A failure of
    the directory creation itself is raised to the caller, with nothing
    printed and the file tree unchanged. *)
Theorem errors_after_mkdir_are_caught env (fs : gmap string node) :
  let r := run env fs in
  if mkdir_ok env fs then
    outcome r = Ok tt
    /\ ((fs !! source_file = None /\ printed r = [not_found_message])
        \/ ((exists B, fs !! source_file = Some (File B))
            /\ rw_ok env fs = true /\ printed r = success_lines)
        \/ (is_Some (fs !! source_file)
            /\ (fs !! source_file = Some Dir \/ rw_ok env fs = false)
            /\ exists e, printed r = [error_line e]))
  else
    outcome r = Raise (default (FileExistsError "lib") (mkdir_fault env))
    /\ printed r = [] /\ files_after r = fs.
Proof.
  intros r. subst r. unfold outcome, printed, files_after, rw_ok.
  rewrite run_eq. cbv zeta.
  destruct (mkdir_ok env fs); [|auto].
  destruct (fs !! source_file) as [[B|]|] eqn:Hsrc; cbn [fst snd console].
  - destruct (read_fault env) as [e|]; cbn [fst snd console absent andb].
    { split; [reflexivity|]. right; right. eauto 10. }
    destruct (open_w_fault env) as [e|]; cbn [fst snd console absent andb].
    { split; [reflexivity|]. right; right. eauto 10. }
    destruct (is_dir fs output_file); cbn [fst snd console negb].
    { split; [reflexivity|]. right; right.
      rewrite andb_false_r. eauto 10. }
    destruct (flush_fault env) as [[k e]|]; cbn [fst snd console absent andb].
    { split; [reflexivity|]. right; right. eauto 10. }
    split; [reflexivity|]. right; left. eauto 10.
  - split; [reflexivity|]. right; right. eauto 10.
  - split; [reflexivity|]. left. auto.
Qed.

(** C7 fails as stated: from an empty directory the run makes ['lib']
    before it tests for the source file, although the source is missing. *)
Lemma lib_is_made_before_the_check :
  check_precedes_effects (run no_faults ∅) = false
  /\ (∅ : gmap string node) !! "lib" = None
  /\ files_after (run no_faults ∅) !! "lib" = Some Dir.
Proof. repeat split; vm_compute; reflexivity. Qed.

(** C7, amended.  The first file-system call of every run is the creation
    of ['lib'], before the existence check.  The check comes before every
    open, read or write of a file: no file is opened ahead of it, and when
    the source file is missing no file is opened at all and the only
    change to the file tree is the directory ['lib']. *)
Theorem check_precedes_file_access env (fs : gmap string node) :
  let r := run env fs in
  (exists rest, calls r = Mkdir "lib" :: rest)
  /\ forallb (fun ev => negb (opens ev)) (before_check (calls r)) = true
  /\ (is_Some (fs !! source_file)
      \/ (forallb (fun ev => negb (opens ev)) (calls r) = true
          /\ files_after r = if mkdir_ok env fs then <["lib" := Dir]> fs else fs)).
Proof.
  intros r. subst r. unfold calls, files_after. rewrite run_eq. cbv zeta.
  destruct (mkdir_ok env fs).
  - destruct (fs !! source_file) as [n|] eqn:Hsrc.
    + split; [|split; [|left; eauto]];
        repeat case_match; cbn [snd trace]; first [eexists; reflexivity | reflexivity].
    + split; [|split; [|right; split]]; repeat case_match; cbn [snd trace files];
        first [eexists; reflexivity | reflexivity].
  - cbn [snd trace files]. split; [eexists; reflexivity|].
    split; [reflexivity|].
    destruct (fs !! source_file); [left; eauto | right; split; reflexivity].
Qed.

(** C8.  Where ['lib'] does not exist and can be made, the run makes it;
    where it is already a directory, the run goes on without error.  In
    both cases the function returns normally with ['lib'] a directory,
    and when the source file holds [B] and reading and writing meet no
    failure, the run succeeds and the artifact of [B] is written. *)
Theorem output_directory_is_ensured env (fs : gmap string node) :
  (fs !! "lib" = None /\ mkdir_fault env = None) \/ fs !! "lib" = Some Dir ->
  let r := run env fs in
  outcome r = Ok tt
  /\ files_after r !! "lib" = Some Dir
  /\ forall B,
       fs !! source_file = Some (File B) -> rw_ok env fs = true ->
       succeeded r /\ files_after r !! output_file = Some (File (artifact B)).
Proof.
  intros Hlib r. subst r.
  assert (Hok : mkdir_ok env fs = true).
  { unfold mkdir_ok. destruct Hlib as [[-> ->] | ->]; reflexivity. }
  split; [|split].
  - unfold outcome. rewrite run_eq, Hok. cbv zeta.
    repeat case_match; reflexivity.
  - unfold files_after. rewrite run_eq, Hok. cbv zeta.
    assert (Hne : (<["lib" := Dir]> fs : gmap string node) !! "lib" = Some Dir)
      by apply lookup_insert_eq.
    repeat case_match; cbn [snd files]; try exact Hne;
      (rewrite lookup_insert_ne by apply output_ne_lib); exact Hne.
  - intros B Hsrc Hrw.
    destruct (run_success env fs B Hsrc) as [Hs Hf].
    { unfold io_ok. rewrite Hok, Hrw. reflexivity. }
    split; [exact Hs|]. rewrite Hf. apply lookup_insert_eq.
Qed.

Lemma output_directory_is_ensured_witness :
  let r := run no_faults fs_workbook_only in
  outcome r = Ok tt
  /\ files_after r !! "lib" = Some Dir
  /\ forall B,
       fs_workbook_only !! source_file = Some (File B) ->
       rw_ok no_faults fs_workbook_only = true ->
       succeeded r /\ files_after r !! output_file = Some (File (artifact B)).
Proof.
  apply output_directory_is_ensured. left. split; vm_compute; reflexivity.
Defined.

(** C9.  Every run, failing or not, leaves the source file as it was and
    changes nothing in the file tree outside ['lib'] and
    [lib/template-data.js]: ['lib'] is untouched or newly made as a
    directory, the output file is untouched or is a regular file written
    by the run, and every file-system call of the run is one of the
    expected ones (the [mkdir] of ['lib'], existence tests, the source
    opened for reading, the output opened and written). *)
Theorem run_touches_only_lib_and_artifact env (fs : gmap string node) :
  let r := run env fs in
  files_after r !! source_file = fs !! source_file
  /\ delete "lib" (delete output_file (files_after r))
     = delete "lib" (delete output_file fs)
  /\ (files_after r !! "lib" = fs !! "lib"
      \/ (fs !! "lib" = None /\ files_after r !! "lib" = Some Dir))
  /\ (files_after r !! output_file = fs !! output_file
      \/ exists data, files_after r !! output_file = Some (File data))
  /\ forallb expected_call (calls r) = true.
Proof.
  intros r. subst r. unfold files_after, calls. rewrite run_eq. cbv zeta.
  assert (Hdel1 : delete "lib" (delete output_file (<["lib" := Dir]> fs))
                  = delete "lib" (delete output_file fs)).
  { rewrite (delete_delete (<["lib" := Dir]> fs)), delete_insert_eq.
    apply delete_delete. }
  unfold mkdir_ok.
  destruct (fs !! "lib") as [[d|]|] eqn:Hl.
  - cbn [snd files trace]. repeat split; auto.
  - rewrite (insert_id fs "lib" Dir Hl).
    repeat case_match; cbn [snd files trace];
      (split; [rewrite ?lookup_insert_ne by ne_paths; done|]);
      (split; [rewrite ?delete_insert_eq; reflexivity|]);
      (split; [left; rewrite ?lookup_insert_ne by ne_paths; done|]);
      (split; [|reflexivity]);
      first [left; done | right; eexists; apply lookup_insert_eq].
  - destruct (mkdir_fault env) as [e|]; cbn [absent].
    + cbn [snd files trace]. repeat split; auto.
    + repeat case_match; cbn [snd files trace];
      (split; [rewrite ?lookup_insert_ne by ne_paths; done|]);
      (split; [rewrite ?delete_insert_eq; exact Hdel1|]);
      (split; [right; split; [reflexivity|];
               rewrite ?lookup_insert_ne by ne_paths; apply lookup_insert_eq|]);
      (split; [|reflexivity]);
      first [left; rewrite ?lookup_insert_ne by ne_paths; done
            | right; eexists; apply lookup_insert_eq].
Qed.

(** C10.  Whatever the bytes [B] of the source file, the encoded payload
    has no single quote, no backslash and no line terminator, and the
    artifact is the fixed head, the payload and the closing [';]: a
    well-formed assignment of a single-quoted string literal. *)
Theorem artifact_is_well_formed_js (B : list byte) :
  forallb js_sq_plain (b64encode B) = true
  /\ artifact B
     = encode_text "window.TEMPLATE_DATA = '" ++ b64encode B ++ encode_text "';"
  /\ well_formed_assignment (artifact B) = true.
Proof.
  split; [apply b64encode_plain|]. split; [|apply artifact_well_formed].
  unfold artifact, encode_text, js_content.
  rewrite !list_byte_of_string_app, list_byte_of_string_of_list_byte.
  reflexivity.
Qed.

(** * Further properties of the script *)

Module More_facts.
Import Rerun_facts.

(** Four characters for every three bytes, the last group padded. *)
Lemma b64encode_length (B : list byte) :
  length (b64encode B) = (4 * ((length B + 2) / 3))%nat.
Proof.
  induction B as [|a|a b|a b c rest IH] using list_ind3; try reflexivity.
  rewrite b64encode_cons3. cbv zeta. cbn [length]. rewrite IH.
  replace (S (S (S (length rest))) + 2)%nat
    with (length rest + 2 + 1 * 3)%nat by lia.
  rewrite Nat.div_add by lia. lia.
Qed.

(** No run changes the source file. *)
Lemma files_after_source env (fs : gmap string node) :
  files_after (run env fs) !! source_file = fs !! source_file.
Proof.
  rewrite files_after_run.
  repeat case_match; rewrite ?lookup_insert_ne by ne_paths; done.
Qed.

End More_facts.

Import Rerun_facts More_facts.

(** X1.  A source file that exists but cannot be read (permission denied,
    I/O error): the error is caught, the run prints [Error: ...] with the
    error's text and returns normally; the output file is not opened, so
    an earlier artifact stays as it was, and the only change to the file
    tree is the directory ['lib']. *)
Theorem unreadable_source_is_reported env (fs : gmap string node) n e :
  fs !! source_file = Some n -> read_fault env = Some e ->
  mkdir_ok env fs = true ->
  let r := run env fs in
  outcome r = Ok tt
  /\ printed r = [error_line e]
  /\ files_after r = <["lib" := Dir]> fs
  /\ files_after r !! output_file = fs !! output_file.
Proof.
  intros Hsrc Hread Hok r. subst r.
  unfold outcome, printed, files_after.
  rewrite run_eq, Hok, Hsrc, Hread. cbv zeta.
  destruct n; cbn [fst snd files console default];
    (repeat split; try reflexivity; apply lookup_insert_ne, lib_ne_output).
Qed.

Lemma unreadable_source_is_reported_witness :
  let r := run source_unreadable fs_with_old_artifact in
  outcome r = Ok tt
  /\ printed r =
     [error_line (Exn "PermissionError"
        "[Errno 13] Permission denied: 'MB Change Request Form.xlsx'")]
  /\ files_after r = <["lib" := Dir]> fs_with_old_artifact
  /\ files_after r !! output_file = fs_with_old_artifact !! output_file.
Proof.
  apply (unreadable_source_is_reported source_unreadable fs_with_old_artifact
           (File workbook_Man));
    [vm_compute; reflexivity | reflexivity | vm_compute; reflexivity].
Defined.

(** X2.  A directory named like the source file passes the existence
    check ([os.path.exists] is true for a directory), so the run does not
    print the "not found" message: opening it fails, the run prints the
    [Error: ...] line of that failure, returns normally and writes
    nothing. *)
Theorem directory_as_source_is_reported env (fs : gmap string node) :
  fs !! source_file = Some Dir -> read_fault env = None ->
  mkdir_ok env fs = true ->
  let r := run env fs in
  outcome r = Ok tt
  /\ printed r = [error_line (IsADirectoryError source_file)]
  /\ printed r <> [not_found_message]
  /\ files_after r = <["lib" := Dir]> fs.
Proof.
  intros Hsrc Hread Hok r. subst r.
  unfold outcome, printed, files_after.
  rewrite run_eq, Hok, Hsrc, Hread. cbv zeta. cbn [fst snd files console default].
  repeat split; try reflexivity. discriminate.
Qed.

Lemma directory_as_source_is_reported_witness :
  let r := run no_faults fs_source_is_dir in
  outcome r = Ok tt
  /\ printed r = [error_line (IsADirectoryError source_file)]
  /\ printed r <> [not_found_message]
  /\ files_after r = <["lib" := Dir]> fs_source_is_dir.
Proof.
  apply directory_as_source_is_reported;
    [apply lookup_singleton_eq | reflexivity | vm_compute; reflexivity].
Defined.

(** X3.  When the source was read but the output file cannot be opened for
    writing (the open is refused, or a directory stands at
    [lib/template-data.js]), the run prints the [Error: ...] line of that
    failure and returns normally; what stands at the output path is left
    as it was and the only change to the file tree is the directory
    ['lib']. *)
Theorem unopened_output_is_untouched env (fs : gmap string node) B :
  fs !! source_file = Some (File B) -> read_fault env = None ->
  mkdir_ok env fs = true ->
  is_Some (open_w_fault env) \/ fs !! output_file = Some Dir ->
  let r := run env fs in
  outcome r = Ok tt
  /\ printed r = [error_line (default (IsADirectoryError output_file)
                                       (open_w_fault env))]
  /\ files_after r = <["lib" := Dir]> fs
  /\ files_after r !! output_file = fs !! output_file.
Proof.
  intros Hsrc Hread Hok Hout r. subst r.
  unfold outcome, printed, files_after.
  rewrite run_eq, Hok, Hsrc, Hread. cbv zeta.
  assert (Hkeep : (<["lib" := Dir]> fs : gmap string node) !! output_file
                  = fs !! output_file) by (apply lookup_insert_ne, lib_ne_output).
  destruct (open_w_fault env) as [e|] eqn:Ho.
  - cbn [fst snd files console default].
    repeat split; try reflexivity; exact Hkeep.
  - destruct Hout as [[e He] | Hdir]; [discriminate He|].
    unfold is_dir. rewrite Hdir. cbn [fst snd files console default].
    repeat split; try reflexivity. rewrite Hkeep. exact Hdir.
Qed.

Lemma unopened_output_is_untouched_witness :
  let r := run no_faults fs_output_is_dir in
  outcome r = Ok tt
  /\ printed r = [error_line (default (IsADirectoryError output_file)
                                       (open_w_fault no_faults))]
  /\ files_after r = <["lib" := Dir]> fs_output_is_dir
  /\ files_after r !! output_file = fs_output_is_dir !! output_file.
Proof.
  apply (unopened_output_is_untouched no_faults fs_output_is_dir workbook_Man);
    [vm_compute; reflexivity | reflexivity | vm_compute; reflexivity
    | right; vm_compute; reflexivity].
Defined.

(** X4.  When the output file was opened and the write then fails after
    [k] bytes, the run prints the [Error: ...] line of the failure and no
    success message, returns normally, and the output file holds exactly
    the first [k] bytes of the new artifact. *)
Theorem failed_write_leaves_prefix env (fs : gmap string node) B k e :
  fs !! source_file = Some (File B) ->
  mkdir_ok env fs = true -> read_fault env = None -> open_w_fault env = None ->
  is_dir fs output_file = false ->
  flush_fault env = Some (k, e) ->
  let r := run env fs in
  outcome r = Ok tt
  /\ printed r = [error_line e]
  /\ files_after r !! output_file = Some (File (firstn k (artifact B)))
  /\ ~ succeeded r.
Proof.
  intros Hsrc Hok Hread Hopen Hdir Hflush r. subst r.
  unfold succeeded, outcome, printed, files_after.
  rewrite run_eq, Hok, Hsrc, Hread, Hopen, Hdir, Hflush. cbv zeta.
  cbn [fst snd files console].
  repeat split; try reflexivity; [apply lookup_insert_eq|].
  intros [_ H]. discriminate H.
Qed.

Lemma failed_write_leaves_prefix_witness :
  let r := run disk_full_after_5 fs_with_old_artifact in
  outcome r = Ok tt
  /\ printed r = [error_line (Exn "OSError" "[Errno 28] No space left on device")]
  /\ files_after r !! output_file
     = Some (File (firstn 5 (artifact workbook_Man)))
  /\ ~ succeeded r.
Proof.
  apply (failed_write_leaves_prefix disk_full_after_5 fs_with_old_artifact);
    try reflexivity; vm_compute; reflexivity.
Defined.

(** X5.  The success report is printed exactly when the source is a
    regular file and no call of the run failed: the two success lines
    never appear after a failure, and always appear without one. *)
Theorem success_exactly_when_all_calls_succeed env (fs : gmap string node) :
  succeeded (run env fs) <->
  (exists B, fs !! source_file = Some (File B)) /\ io_ok env fs = true.
Proof.
  split.
  - intros Hs. destruct (succeeded_inv env fs Hs) as (B & Hsrc & Hok). eauto.
  - intros [[B Hsrc] Hok]. apply (run_success env fs B Hsrc Hok).
Qed.

(** X6.  Every byte of the artifact is ASCII (below 128), whatever the
    workbook: the file written in text mode, with no [encoding] given to
    [open], has the same bytes under every ASCII-compatible encoding. *)
Theorem artifact_is_ascii (B : list byte) : forallb is_ascii (artifact B) = true.
Proof.
  unfold artifact, encode_text, js_content.
  rewrite !list_byte_of_string_app, list_byte_of_string_of_list_byte.
  rewrite !forallb_app, b64encode_is_ascii. reflexivity.
Qed.

(** X7.  The size of the artifact: 26 bytes of frame and four characters
    for every three bytes of the workbook, the last group rounded up. *)
Theorem artifact_length (B : list byte) :
  length (artifact B) = (26 + 4 * ((length B + 2) / 3))%nat.
Proof.
  unfold artifact, encode_text, js_content.
  rewrite !list_byte_of_string_app, list_byte_of_string_of_list_byte.
  rewrite !length_app, b64encode_length.
  change (length (list_byte_of_string "window.TEMPLATE_DATA = '")) with 24%nat.
  change (length (list_byte_of_string "';")) with 2%nat. lia.
Qed.

(** X8.  Workbooks that differ in any byte give artifacts that differ. *)
Theorem different_workbooks_differ (B1 B2 : list byte) :
  B1 <> B2 -> artifact B1 <> artifact B2.
Proof.
  intros Hne H. apply Hne. pose proof (payload_of_artifact B1) as H1.
  rewrite H, payload_of_artifact in H1. congruence.
Qed.

Lemma different_workbooks_differ_witness :
  artifact workbook_Man <> artifact [].
Proof. apply different_workbooks_differ. discriminate. Defined.

(** X9.  Whatever an earlier run did (missing directory made, artifact
    written in part or not at all), a following run whose calls all
    succeed leaves the complete artifact of the workbook: the output is
    overwritten from the start. *)
Theorem next_good_run_repairs env1 env2 (fs : gmap string node) B :
  fs !! source_file = Some (File B) ->
  io_ok env2 (files_after (run env1 fs)) = true ->
  let r2 := run env2 (files_after (run env1 fs)) in
  succeeded r2 /\ files_after r2 !! output_file = Some (File (artifact B)).
Proof.
  intros Hsrc Hok r2. subst r2.
  assert (Hsrc1 : files_after (run env1 fs) !! source_file = Some (File B))
    by (rewrite files_after_source; exact Hsrc).
  destruct (run_success env2 _ B Hsrc1 Hok) as [Hs Hf].
  split; [exact Hs|]. rewrite Hf. apply lookup_insert_eq.
Qed.

Lemma next_good_run_repairs_witness :
  let r2 :=
    run no_faults (files_after (run disk_full_after_5 fs_with_old_artifact)) in
  succeeded r2
  /\ files_after r2 !! output_file = Some (File (artifact workbook_Man)).
Proof.
  apply next_good_run_repairs; vm_compute; reflexivity.
Defined.

(** X10.  On a run whose calls all succeed, what the output file held
    before has no influence: the file tree after the run is the same
    whether an old artifact was there or not. *)
Theorem old_artifact_is_irrelevant env (fs : gmap string node) B old :
  fs !! source_file = Some (File B) -> io_ok env fs = true ->
  files_after (run env (<[output_file := File old]> fs)) = files_after (run env fs).
Proof.
  intros Hsrc Hok.
  destruct (run_success env fs B Hsrc Hok) as [_ ->].
  assert (Hok' : io_ok env (<[output_file := File old]> fs) = true).
  { unfold io_ok, rw_ok, mkdir_ok, is_dir in *.
    rewrite lookup_insert_ne by ne_paths. rewrite lookup_insert_eq.
    apply andb_true_iff in Hok as [-> Hrw].
    apply andb_true_iff in Hrw as [Hrw _].
    rewrite Hrw. reflexivity. }
  assert (Hsrc' : (<[output_file := File old]> fs : gmap string node)
                    !! source_file = Some (File B))
    by (rewrite lookup_insert_ne by ne_paths; exact Hsrc).
  destruct (run_success env _ B Hsrc' Hok') as [_ ->].
  rewrite (insert_insert_ne fs) by ne_paths.
  apply insert_insert_eq.
Qed.

Lemma old_artifact_is_irrelevant_witness :
  files_after (run no_faults
                 (<[output_file := File (list_byte_of_string "old")]>
                    fs_workbook_only))
  = files_after (run no_faults fs_workbook_only).
Proof.
  apply (old_artifact_is_irrelevant no_faults fs_workbook_only workbook_Man);
    [apply lookup_singleton_eq | vm_compute; reflexivity].
Defined.
